(** * The pgAdmin server registry of nba-stats

    [services/pgadmin/servers.py] declares one module-level constant,
    [SERVERS]: a Python dict literal that maps a server id (a string key) to
    a dict of connection settings.  The module holds no function; importing
    it evaluates the literal and binds the name.

    The development embeds the literal the way Python evaluates it: the
    key/value pairs are inserted from left to right into an empty dict, a
    later pair overwriting an earlier one with the same key.  Dicts are
    stdpp finite maps, whose equality is the order-insensitive equality of
    Python dicts. *)

From Stdlib Require Import ZArith String List.
From stdpp Require Import base strings gmap list fin_maps.

Local Open Scope string_scope.

(** ** Python values and dict literals *)

Module Py.

(** The values that occur in the registry: [str], [int] (unbounded) and
    [bool]. *)
Inductive value : Type :=
| Str (s : string)
| Int (n : Z)
| Bool (b : bool).

#[global] Instance value_eq_dec : EqDecision value.
Proof. solve_decision. Defined.

(** Storing pairs into a dict one after the other, [d[k] = v] for each. *)
Definition store {V : Type} (d : gmap string V) (items : list (string * V))
  : gmap string V :=
  fold_left (λ d kv, <[kv.1 := kv.2]> d) items d.

(** [{k1: v1, ..., kn: vn}]: the pairs are stored from left to right into
    an empty dict. *)
Definition dict_literal {V : Type} (items : list (string * V)) : gmap string V :=
  store ∅ items.

(** [d[k]]: a missing key raises [KeyError], here [None]. *)
Definition getitem {V : Type} (d : gmap string V) (k : string) : option V :=
  d !! k.

(** [k in d] *)
Definition contains {V : Type} (d : gmap string V) (k : string) : bool :=
  bool_decide (is_Some (d !! k)).

(** [len(d)] *)
Definition len {V : Type} (d : gmap string V) : nat := size d.

End Py.

(** ** The source constant *)

(** The pairs of the inner literal, lines 8 to 17, in source order. *)
Definition server_1_items : list (string * Py.value) :=
  [ ("name", Py.Str "nba-stats-db");
    ("group_name", Py.Str "Servers");
    ("host", Py.Str "postgres");
    ("port", Py.Int 5432);
    ("maintenance_db", Py.Str "postgres");
    ("username", Py.Str "postgres");
    ("password", Py.Str "postgres");
    ("ssl_mode", Py.Str "prefer");
    ("connect_timeout", Py.Int 10);
    ("save_password", Py.Bool true) ].

Definition server_1 : gmap string Py.value := Py.dict_literal server_1_items.

(** The pairs of the outer literal, lines 6 to 19. *)
Definition SERVERS_items : list (string * gmap string Py.value) :=
  [ ("1", server_1) ].

Definition SERVERS : gmap string (gmap string Py.value) :=
  Py.dict_literal SERVERS_items.

(** The six TLS negotiation policies that the specification recognises for
    [ssl_mode]. *)
Definition recognized_ssl_modes : list string :=
  [ "disable"; "allow"; "prefer"; "require"; "verify-ca"; "verify-full" ].

(** ** Evaluation of dict literals *)

Section dict_literal.
Context {V : Type}.
Implicit Types (items : list (string * V)) (d : gmap string V).
Implicit Types (k : string) (v : V).

Lemma store_nil d : Py.store d [] = d.
Proof. reflexivity. Qed.

Lemma store_cons d k v items :
  Py.store d ((k, v) :: items) = Py.store (<[k := v]> d) items.
Proof. reflexivity. Qed.

(** A key that no pair mentions keeps the value it had. *)
Lemma store_lookup_notin items d k :
  k ∉ items.*1 → Py.store d items !! k = d !! k.
Proof.
  revert d. induction items as [|[k' v'] items IH]; intros d Hk; [done|].
  rewrite fmap_cons in Hk. apply not_elem_of_cons in Hk as [Hne Hk].
  rewrite store_cons, IH by done. by apply lookup_insert_ne.
Qed.

(** Whatever is read back was either written by some pair or there
    before. *)
Lemma store_lookup_Some items d k v :
  Py.store d items !! k = Some v → (k, v) ∈ items ∨ d !! k = Some v.
Proof.
  revert d. induction items as [|[k' v'] items IH]; intros d Hk; [by right|].
  rewrite store_cons in Hk. apply IH in Hk as [Hin|Hk]; [left; by right|].
  apply lookup_insert_Some in Hk as [[-> ->]|[_ Hk]]; [left; by left|by right].
Qed.

(** With pairwise distinct keys every pair is read back. *)
Lemma store_lookup_elem items d k v :
  NoDup items.*1 → (k, v) ∈ items → Py.store d items !! k = Some v.
Proof.
  revert d. induction items as [|[k' v'] items IH]; intros d Hnd Hin.
  - by apply elem_of_nil in Hin.
  - rewrite fmap_cons in Hnd. apply NoDup_cons in Hnd as [Hk' Hnd].
    rewrite store_cons.
    apply elem_of_cons in Hin as [[= -> ->]|Hin]; [|by apply IH].
    rewrite store_lookup_notin by done. apply lookup_insert_eq.
Qed.

(** With pairwise distinct fresh keys every pair adds one entry. *)
Lemma store_size items d :
  NoDup items.*1 → (∀ k, k ∈ items.*1 → d !! k = None) →
  size (Py.store d items) = size d + length items.
Proof.
  revert d. induction items as [|[k' v'] items IH]; intros d Hnd Hfresh.
  - rewrite store_nil. cbn. lia.
  - rewrite fmap_cons in Hnd, Hfresh. apply NoDup_cons in Hnd as [Hk' Hnd].
    rewrite store_cons, IH; [|done|].
    + rewrite map_size_insert_None; [cbn; lia|]. apply Hfresh. by left.
    + intros k Hk. rewrite lookup_insert_ne by (intros ->; done).
      apply Hfresh. by right.
Qed.

Lemma dict_literal_lookup_Some items k v :
  Py.dict_literal items !! k = Some v → (k, v) ∈ items.
Proof.
  intros [Hin|Hk]%store_lookup_Some; [done|].
  by rewrite lookup_empty in Hk.
Qed.

Lemma dict_literal_lookup_elem items k v :
  NoDup items.*1 → (k, v) ∈ items → Py.dict_literal items !! k = Some v.
Proof. apply store_lookup_elem. Qed.

Lemma dict_literal_size items :
  NoDup items.*1 → Py.len (Py.dict_literal items) = length items.
Proof.
  intros Hnd. unfold Py.len, Py.dict_literal.
  rewrite (store_size items ∅ Hnd); [by rewrite map_size_empty|].
  intros k _. apply lookup_empty.
Qed.

End dict_literal.

(** Distinct keys of a literal name distinct pairs. *)
Lemma items_key_unique {V : Type} (items : list (string * V)) i j k v1 v2 :
  NoDup items.*1 →
  items !! i = Some (k, v1) → items !! j = Some (k, v2) → i = j.
Proof.
  intros Hnd Hi Hj. apply (NoDup_lookup (items.*1) i j k Hnd).
  - by rewrite list_lookup_fmap, Hi.
  - by rewrite list_lookup_fmap, Hj.
Qed.

(** ** The registry and its one record *)

Lemma server_1_items_NoDup : NoDup server_1_items.*1.
Proof. apply (bool_decide_unpack _). vm_compute. reflexivity. Qed.

Lemma SERVERS_items_NoDup : NoDup SERVERS_items.*1.
Proof. apply NoDup_singleton. Qed.

Create HintDb registry.
#[local] Hint Resolve server_1_items_NoDup SERVERS_items_NoDup : registry.

Lemma SERVERS_lookup_1 : SERVERS !! "1" = Some server_1.
Proof. apply dict_literal_lookup_elem; [auto with registry|by left]. Qed.

(** The registry has no entry but the one under ["1"]. *)
Lemma SERVERS_lookup_inv k e :
  SERVERS !! k = Some e → k = "1" ∧ e = server_1.
Proof.
  intros Hin%dict_literal_lookup_Some.
  apply list_elem_of_singleton in Hin. by injection Hin.
Qed.

Lemma SERVERS_singleton : SERVERS = {["1" := server_1]}.
Proof.
  apply map_eq; intros k. destruct (decide (k = "1")) as [->|Hne].
  - by rewrite SERVERS_lookup_1, lookup_singleton_eq.
  - rewrite lookup_singleton_ne by done.
    destruct (SERVERS !! k) as [e|] eqn:He; [|done].
    by apply SERVERS_lookup_inv in He as [-> _].
Qed.

(** Every pair of the inner literal is a field of the record. *)
Lemma server_1_field f v :
  (f, v) ∈ server_1_items → server_1 !! f = Some v.
Proof. apply dict_literal_lookup_elem; auto with registry. Qed.

(** Reduces a statement about every entry to one about [server_1]. *)
Ltac the_entry H := apply SERVERS_lookup_inv in H as [-> ->].

(** Reads a field of [server_1] off the literal. *)
Ltac field :=
  apply server_1_field; unfold server_1_items;
  repeat first [apply list_elem_of_here | apply list_elem_of_further].

(** ** Properties of the registry *)

(** C1: evaluating the module yields a registry with exactly one profile,
    stored under ["1"]; every read below returns a value (no [KeyError]), and
    the profile has name "nba-stats-db", host "postgres", port 5432, ssl_mode
    "prefer", connect_timeout 10 and save_password [True]. *)
Theorem C1_registry_holds_one_profile :
  Py.len SERVERS = 1 ∧
  ∃ e, SERVERS = {["1" := e]} ∧
       Py.getitem SERVERS "1" = Some e ∧
       Py.getitem e "name" = Some (Py.Str "nba-stats-db") ∧
       Py.getitem e "host" = Some (Py.Str "postgres") ∧
       Py.getitem e "port" = Some (Py.Int 5432) ∧
       Py.getitem e "ssl_mode" = Some (Py.Str "prefer") ∧
       Py.getitem e "connect_timeout" = Some (Py.Int 10) ∧
       Py.getitem e "save_password" = Some (Py.Bool true).
Proof.
  split.
  - unfold SERVERS. rewrite dict_literal_size; [done|auto with registry].
  - exists server_1. unfold Py.getitem.
    split; [apply SERVERS_singleton|]. split; [apply SERVERS_lookup_1|].
    repeat split; field.
Qed.

(** C2: the port of every entry of the registry is an integer between 1 and
    65535, bounds included. *)
Theorem C2_port_in_range (k : string) (e : gmap string Py.value) :
  SERVERS !! k = Some e →
  ∃ p, e !! "port" = Some (Py.Int p) ∧ (1 ≤ p ≤ 65535)%Z.
Proof.
  intros He. the_entry He. exists 5432%Z. split; [field|lia].
Qed.

Lemma C2_port_in_range_witness :
  SERVERS !! "1" = Some server_1 ∧
  ∃ p, server_1 !! "port" = Some (Py.Int p) ∧ (1 ≤ p ≤ 65535)%Z.
Proof.
  split; [vm_compute; reflexivity|].
  apply (C2_port_in_range "1" server_1). vm_compute; reflexivity.
Defined.

(** C3: the connect_timeout of every entry of the registry is an integer
    strictly greater than 0. *)
Theorem C3_connect_timeout_positive (k : string) (e : gmap string Py.value) :
  SERVERS !! k = Some e →
  ∃ t, e !! "connect_timeout" = Some (Py.Int t) ∧ (0 < t)%Z.
Proof.
  intros He. the_entry He. exists 10%Z. split; [field|lia].
Qed.

Lemma C3_connect_timeout_positive_witness :
  SERVERS !! "1" = Some server_1 ∧
  ∃ t, server_1 !! "connect_timeout" = Some (Py.Int t) ∧ (0 < t)%Z.
Proof.
  split; [vm_compute; reflexivity|].
  apply (C3_connect_timeout_positive "1" server_1). vm_compute; reflexivity.
Defined.

(** C4: the ssl_mode of every entry of the registry is one of the six strings
    disable, allow, prefer, require, verify-ca, verify-full. *)
Theorem C4_ssl_mode_recognized (k : string) (e : gmap string Py.value) :
  SERVERS !! k = Some e →
  ∃ m, e !! "ssl_mode" = Some (Py.Str m) ∧ m ∈ recognized_ssl_modes.
Proof.
  intros He. the_entry He. exists "prefer". split; [field|].
  unfold recognized_ssl_modes. do 2 apply list_elem_of_further.
  apply list_elem_of_here.
Qed.

Lemma C4_ssl_mode_recognized_witness :
  SERVERS !! "1" = Some server_1 ∧
  ∃ m, server_1 !! "ssl_mode" = Some (Py.Str m) ∧ m ∈ recognized_ssl_modes.
Proof.
  split; [vm_compute; reflexivity|].
  apply (C4_ssl_mode_recognized "1" server_1). vm_compute; reflexivity.
Defined.

(** C5: every profile of the registry has an id, the key under which its
    record is stored (the id is the mapping key; the record does not repeat
    it as a field of its own); that id is a non-empty string and is unique
    among sibling entries: no two pairs of the literal carry it. *)
Theorem C5_id_is_the_key (k : string) (e : gmap string Py.value) :
  SERVERS !! k = Some e →
  k ≠ "" ∧ e !! "id" = None ∧
  ∀ (i j : nat) (e1 e2 : gmap string Py.value),
    SERVERS_items !! i = Some (k, e1) →
    SERVERS_items !! j = Some (k, e2) → i = j.
Proof.
  intros He. the_entry He. split; [discriminate|]. split.
  - destruct (server_1 !! "id") as [v|] eqn:Hv; [|done].
    apply dict_literal_lookup_Some in Hv. unfold server_1_items in Hv.
    repeat (apply elem_of_cons in Hv as [[=]|Hv]). by apply elem_of_nil in Hv.
  - intros i j e1 e2. apply items_key_unique. auto with registry.
Qed.

Lemma C5_id_is_the_key_witness :
  SERVERS !! "1" = Some server_1 ∧
  "1" ≠ "" ∧ server_1 !! "id" = None ∧
  ∀ (i j : nat) (e1 e2 : gmap string Py.value),
    SERVERS_items !! i = Some ("1", e1) →
    SERVERS_items !! j = Some ("1", e2) → i = j.
Proof.
  split; [vm_compute; reflexivity|].
  apply (C5_id_is_the_key "1" server_1). vm_compute; reflexivity.
Defined.

(** C6: in every entry of the registry the password field is present only if
    the entry's save_password field is [True]. *)
Theorem C6_password_only_if_saved (k : string) (e : gmap string Py.value) :
  SERVERS !! k = Some e →
  Py.contains e "password" = true →
  e !! "save_password" = Some (Py.Bool true).
Proof.
  intros He _. the_entry He. field.
Qed.

Lemma C6_password_only_if_saved_witness :
  SERVERS !! "1" = Some server_1 ∧
  Py.contains server_1 "password" = true ∧
  server_1 !! "save_password" = Some (Py.Bool true).
Proof.
  split; [vm_compute; reflexivity|]. split; [vm_compute; reflexivity|].
  apply (C6_password_only_if_saved "1" server_1); vm_compute; reflexivity.
Defined.

(** C9: in every entry of the registry the fields name, group_name,
    maintenance_db and username hold non-empty strings. *)
Theorem C9_labels_non_empty (k f : string) (e : gmap string Py.value) :
  SERVERS !! k = Some e →
  f ∈ ["name"; "group_name"; "maintenance_db"; "username"] →
  ∃ s, e !! f = Some (Py.Str s) ∧ s ≠ "".
Proof.
  intros He Hf. the_entry He.
  repeat (apply elem_of_cons in Hf as [->|Hf]);
    [eexists; split; [field|discriminate] ..|by apply elem_of_nil in Hf].
Qed.

Lemma C9_labels_non_empty_witness :
  SERVERS !! "1" = Some server_1 ∧
  "username" ∈ ["name"; "group_name"; "maintenance_db"; "username"] ∧
  ∃ s, server_1 !! "username" = Some (Py.Str s) ∧ s ≠ "".
Proof.
  split; [vm_compute; reflexivity|].
  split; [apply (bool_decide_unpack _); vm_compute; reflexivity|].
  apply (C9_labels_non_empty "1" "username" server_1).
  - vm_compute; reflexivity.
  - apply (bool_decide_unpack _); vm_compute; reflexivity.
Defined.

(** C10: the secret is written out in the source: the pair of key "password"
    and the literal "postgres" stands in the record of the registry's single
    entry, whose password, username and host all read "postgres" and whose
    save_password is [True]. *)
Theorem C10_plaintext_default_credential :
  ("password", Py.Str "postgres") ∈ server_1_items ∧
  ∃ e, SERVERS = {["1" := e]} ∧
       e !! "password" = Some (Py.Str "postgres") ∧
       e !! "username" = e !! "password" ∧
       e !! "host" = e !! "username" ∧
       e !! "save_password" = Some (Py.Bool true).
Proof.
  assert (Hp : server_1 !! "password" = Some (Py.Str "postgres")) by field.
  assert (Hu : server_1 !! "username" = Some (Py.Str "postgres")) by field.
  assert (Hh : server_1 !! "host" = Some (Py.Str "postgres")) by field.
  split.
  - unfold server_1_items.
    repeat first [apply list_elem_of_here | apply list_elem_of_further].
  - exists server_1. split; [apply SERVERS_singleton|].
    rewrite Hh, Hu, Hp. do 3 (split; [reflexivity|]). field.
Qed.

(** ** What a reader of the registry gets *)

(** X1: no pair of the inner literal is shadowed by a later one and nothing
    is added to it: every entry of the registry has ten fields, and reading a
    field returns a value exactly when lines 8 to 17 write that pair. *)
Theorem X1_entry_reads_back_its_pairs (k : string) (e : gmap string Py.value) :
  SERVERS !! k = Some e →
  Py.len e = 10 ∧
  ∀ (f : string) (v : Py.value),
    Py.getitem e f = Some v ↔ (f, v) ∈ server_1_items.
Proof.
  intros He. the_entry He. split.
  - unfold server_1. rewrite dict_literal_size by auto with registry.
    reflexivity.
  - intros f v. unfold Py.getitem. split.
    + apply dict_literal_lookup_Some.
    + apply server_1_field.
Qed.

Lemma X1_entry_reads_back_its_pairs_witness :
  SERVERS !! "1" = Some server_1 ∧
  Py.len server_1 = 10 ∧
  ∀ (f : string) (v : Py.value),
    Py.getitem server_1 f = Some v ↔ (f, v) ∈ server_1_items.
Proof.
  split; [vm_compute; reflexivity|].
  apply (X1_entry_reads_back_its_pairs "1" server_1). vm_compute; reflexivity.
Defined.

(** X2: the read [SERVERS[k][f]] returns a value exactly when [k] is "1" and
    [f] is one of the ten field names; with any other id or field name it
    raises [KeyError]. *)
Theorem X2_read_succeeds_iff_known (k f : string) :
  is_Some (Py.getitem SERVERS k ≫= λ e, Py.getitem e f) ↔
  k = "1" ∧
  f ∈ [ "name"; "group_name"; "host"; "port"; "maintenance_db"; "username";
        "password"; "ssl_mode"; "connect_timeout"; "save_password" ].
Proof.
  unfold Py.getitem. split.
  - intros [v Hv]. apply bind_Some in Hv as (e & He & Hf).
    the_entry He. split; [reflexivity|].
    apply dict_literal_lookup_Some in Hf.
    apply (list_elem_of_fmap_2 fst) in Hf. exact Hf.
  - intros [-> Hf]. rewrite SERVERS_lookup_1. cbn [mbind option_bind].
    repeat (apply elem_of_cons in Hf as [->|Hf]);
      [eexists; field ..|by apply elem_of_nil in Hf].
Qed.
